(** * workflow_demo.py: the browser-automation workflow demo

    A shallow embedding of [docs/user-guide/examples/workflow_demo.py].
    The script is one procedure, [demo_browser_workflow], that walks a fixed
    list of step dictionaries, prints progress text, appends mock result
    dictionaries to a local list, prints a summary computed from that list
    and finally prints a JSON rendering of a literal dictionary.

    Python values are modelled as follows.
    - [scalar]: the non-container values the script stores in dictionaries
      ([None], [bool], [int], [float], [str]).  A [float] is kept as the
      rational it denotes; the two float literals of the script, [2.5] and
      [0.5], are dyadic and therefore exact.
    - The step dictionaries and the mock results are only ever accessed by
      key, so they are finite maps [gmap string scalar].
    - [workflow_def] is handed to [json.dumps], which walks a dictionary in
      insertion order, so it is a [pyval] whose dictionaries are association
      lists.
    - [str] is a byte string holding the UTF-8 encoding of the text.

    Effects are modelled by a state-and-exception monad over a [world] that
    holds the text written to standard output, the delays slept and
    an abstract remainder [Ext] (file system, network, environment, ...)
    in which the whole development is parametric. *)

From Stdlib Require Import ZArith QArith Ascii String.
From stdpp Require Import gmap strings list fin_maps pretty.

Local Open Scope Z_scope.

(** ** Values *)

Inductive scalar : Type :=
  | VNone
  | VBool (b : bool)
  | VInt (z : Z)
  | VFloat (q : Q)
  | VStr (s : string).

#[local] Set Warnings "-register-all".
Inductive pyval : Type :=
  | PAtom (a : scalar)
  | PList (l : list pyval)
  | PDict (d : list (string * pyval)).
#[local] Set Warnings "register-all".

Inductive exn : Type :=
  | KeyError (key : string)
  | TypeError
  | ValueError
  | OverflowError.

Inductive outcome (A : Type) : Type :=
  | Normal (a : A)
  | Raise (e : exn).
Arguments Normal {A} a.
Arguments Raise {A} e.

(** ** Text helpers *)

(** The line feed and the double quote cannot be written inside a literal. *)
Definition nl : string := String "010"%char EmptyString.
Definition dquote : ascii := "034"%char.
Definition backslash : ascii := "092"%char.

(** [s * n] on strings. *)
Fixpoint str_mul (s : string) (n : nat) : string :=
  match n with
  | O => EmptyString
  | S n' => s +:+ str_mul s n'
  end.

(** [s.startswith(p)] *)
Fixpoint starts_with (p s : string) {struct p} : bool :=
  match p, s with
  | EmptyString, _ => true
  | String a p', String b s' => if Ascii.eqb a b then starts_with p' s' else false
  | String _ _, EmptyString => false
  end.

(** Digits after the decimal point of [num / den], for [0 <= num < den]. *)
Fixpoint frac_digits (fuel : nat) (num den : Z) : string :=
  match fuel with
  | O => EmptyString
  | S fuel' =>
      if num =? 0 then EmptyString
      else pretty ((10 * num) / den) +:+ frac_digits fuel' ((10 * num) mod den) den
  end.

(** [repr] of a float: sign, integer part, point, fraction (["0"] when the
    value is integral).  This is Python's shortest round-trip rendering for
    dyadic values of magnitude in [1e-4, 1e16) whose decimal expansion has
    at most 17 digits, which covers every float the script formats. *)
Definition float_repr (q : Q) : string :=
  let n := Qnum q in
  let d := Zpos (Qden q) in
  let a := Z.abs n in
  (if n <? 0 then "-" else EmptyString)
    +:+ pretty (a / d) +:+ "."
    +:+ (if a mod d =? 0 then "0" else frac_digits 17 (a mod d) d).

(** [str(x)], which is what an f-string field [{x}] inserts.  An integer
    is written out in full at any size: the interpreter's default limit of
    4300 digits on that conversion is not modelled. *)
Definition py_str (v : scalar) : string :=
  match v with
  | VNone => "None"
  | VBool true => "True"
  | VBool false => "False"
  | VInt z => pretty z
  | VFloat q => float_repr q
  | VStr s => s
  end.

(** [v == s] for a string literal [s]: only an equal [str] compares equal. *)
Definition py_eq_str (v : scalar) (s : string) : bool :=
  match v with
  | VStr t => bool_decide (t = s)
  | _ => false
  end.

(** ** Dictionaries accessed by key *)

(** A dictionary display [{k1: v1, ..., kn: vn}]: the items are inserted
    from left to right, a later item replacing an earlier one. *)
Definition dict_literal (items : list (string * scalar)) : gmap string scalar :=
  foldl (fun m kv => <[kv.1 := kv.2]> m) ∅ items.

(** [k in d] *)
Definition dict_contains (d : gmap string scalar) (k : string) : bool :=
  match d !! k with
  | Some _ => true
  | None => false
  end.

(** [d.get(k, default)] *)
Definition dict_get_default (d : gmap string scalar) (k : string) (dflt : scalar) : scalar :=
  match d !! k with
  | Some v => v
  | None => dflt
  end.

(** ** The world and the monad of effects *)

Section Effects.

(** Whatever exists outside the process besides its standard output and
    the clock: files, sockets, environment variables. *)
Context {Ext : Type}.

Record world : Type := World {
  stdout : list string;   (** the chunks written so far, newest first *)
  sleeps : list Q;        (** the delays slept so far, newest first *)
  ext : Ext
}.

Definition M (A : Type) : Type := world -> outcome A * world.

Definition ret {A : Type} (a : A) : M A := fun w => (Normal a, w).

Definition bind {A B : Type} (m : M A) (k : A -> M B) : M B :=
  fun w =>
    match m w with
    | (Normal a, w') => k a w'
    | (Raise e, w') => (Raise e, w')
    end.

Definition raise {A : Type} (e : exn) : M A := fun w => (Raise e, w).

(** [print(s)]: writes [s] and a line feed.  Standard output is taken to
    be a text stream that accepts every character. *)
Definition print (s : string) : M unit :=
  fun w => (Normal tt, World ((s +:+ nl) :: stdout w) (sleeps w) (ext w)).

(** The bound of [time.sleep]: it keeps the delay as a signed 64-bit number
    of nanoseconds. *)
Definition sleep_limit : Q := 9223372036854775808 # 1000000000.

(** [time.sleep(secs)]: the argument is first converted to nanoseconds,
    which raises [OverflowError] beyond the bound on either side; then a
    negative argument raises [ValueError], and any other suspends the process
    for that long.  The arguments modelled are finite, and within a rounding
    error of the bound the platform decides. *)
Definition sleep (secs : Q) : M unit :=
  fun w =>
    if Qle_bool sleep_limit secs || Qle_bool secs (- sleep_limit)
    then (Raise OverflowError, w)
    else if Qle_bool 0 secs
    then (Normal tt, World (stdout w) (secs :: sleeps w) (ext w))
    else (Raise ValueError, w).

(** [d[k]] *)
Definition getitem (d : gmap string scalar) (k : string) : M scalar :=
  match d !! k with
  | Some v => ret v
  | None => raise (KeyError k)
  end.

End Effects.

Arguments world : clear implicits.
Arguments M : clear implicits.

(** The delays [time.sleep] takes without raising. *)
Definition sleep_ok (secs : Q) : bool :=
  negb (Qle_bool sleep_limit secs || Qle_bool secs (- sleep_limit))
  && Qle_bool 0 secs.

Declare Scope py_scope.
Delimit Scope py_scope with py.
Notation "x <- m ;; k" := (bind m (fun x => k))
  (at level 100, m at next level, right associativity) : py_scope.
Notation "m ;;; k" := (bind m (fun _ => k))
  (at level 100, right associativity) : py_scope.
Local Open Scope py_scope.

(** ** [json.dumps]

    The encoder of the standard library with its default [ensure_ascii=True]:
    inside a string the quote, the backslash and everything outside the
    printable ASCII range are escaped, characters beyond the basic plane
    as a surrogate pair. *)

Definition hex_digit (n : N) : ascii :=
  match n with
  | 0 => "0" | 1 => "1" | 2 => "2" | 3 => "3" | 4 => "4" | 5 => "5"
  | 6 => "6" | 7 => "7" | 8 => "8" | 9 => "9" | 10 => "a" | 11 => "b"
  | 12 => "c" | 13 => "d" | 14 => "e" | _ => "f"
  end%char%N.

(** [\uXXXX] for a 16-bit unit. *)
Definition u_escape (n : N) : string :=
  String backslash (String "u"%char
    (String (hex_digit (n / 4096 mod 16)%N) (String (hex_digit (n / 256 mod 16)%N)
      (String (hex_digit (n / 16 mod 16)%N) (String (hex_digit (n mod 16)%N)
        EmptyString))))).

Definition escape_code_point (cp : N) : string :=
  if (cp <? 65536)%N then u_escape cp
  else
    let v := (cp - 65536)%N in
    u_escape (55296 + v / 1024 mod 1024)%N +:+ u_escape (56320 + v mod 1024)%N.

Definition escape_ascii (c : ascii) : string :=
  let n := N_of_ascii c in
  if (n =? 34)%N then String backslash (String dquote EmptyString)
  else if (n =? 92)%N then String backslash (String backslash EmptyString)
  else if (n =? 8)%N then String backslash "b"
  else if (n =? 12)%N then String backslash "f"
  else if (n =? 10)%N then String backslash "n"
  else if (n =? 13)%N then String backslash "r"
  else if (n =? 9)%N then String backslash "t"
  else if ((32 <=? n) && (n <=? 126))%N then String c EmptyString
  else u_escape n.

(** Walks the UTF-8 bytes; [acc] and [need] hold the code point being
    assembled and the number of continuation bytes still to come. *)
Fixpoint json_escape_go (acc : N) (need : nat) (s : string) : string :=
  match s with
  | EmptyString => EmptyString
  | String c s' =>
      let n := N_of_ascii c in
      match need with
      | S need' =>
          let acc' := (acc * 64 + n mod 64)%N in
          match need' with
          | O => escape_code_point acc' +:+ json_escape_go 0%N O s'
          | S _ => json_escape_go acc' need' s'
          end
      | O =>
          if (n <? 128)%N then escape_ascii c +:+ json_escape_go 0%N O s'
          else if (n <? 224)%N then json_escape_go (n mod 32)%N 1%nat s'
          else if (n <? 240)%N then json_escape_go (n mod 16)%N 2%nat s'
          else json_escape_go (n mod 8)%N 3%nat s'
      end
  end.

Definition json_string (s : string) : string :=
  String dquote (json_escape_go 0%N O s +:+ String dquote EmptyString).

Definition json_atom (a : scalar) : string :=
  match a with
  | VNone => "null"
  | VBool true => "true"
  | VBool false => "false"
  | VInt z => pretty z
  | VFloat q => float_repr q
  | VStr s => json_string s
  end.

(** The line break and indentation put before an item at nesting [level]. *)
Definition newline_indent (indent level : nat) : string :=
  nl +:+ str_mul " " (indent * level).

(** The pretty-printing encoder used when [indent] is given: items are
    separated by a comma and a line break, a key from its value by a colon
    and a space, and an empty container stays on one line. *)
Fixpoint json_encode (indent level : nat) (v : pyval) {struct v} : string :=
  match v with
  | PAtom a => json_atom a
  | PList [] => "[]"
  | PList (x :: xs) =>
      "[" +:+ newline_indent indent (S level) +:+ json_encode indent (S level) x
      +:+ (fix rest (l : list pyval) : string :=
             match l with
             | [] => EmptyString
             | y :: l' =>
                 "," +:+ newline_indent indent (S level)
                 +:+ json_encode indent (S level) y +:+ rest l'
             end) xs
      +:+ newline_indent indent level +:+ "]"
  | PDict [] => "{}"
  | PDict ((k, x) :: kvs) =>
      "{" +:+ newline_indent indent (S level) +:+ json_string k +:+ ": "
      +:+ json_encode indent (S level) x
      +:+ (fix rest (l : list (string * pyval)) : string :=
             match l with
             | [] => EmptyString
             | (k', y) :: l' =>
                 "," +:+ newline_indent indent (S level) +:+ json_string k' +:+ ": "
                 +:+ json_encode indent (S level) y +:+ rest l'
             end) kvs
      +:+ newline_indent indent level +:+ "}"
  end.

(** [json.dumps(obj, indent=n)] *)
Definition json_dumps (indent : nat) (obj : pyval) : string :=
  json_encode indent 0 obj.

(** ** Reading JSON back

    A reader for the JSON grammar, used to state what the printed document
    denotes.  Objects become association lists in document order (a repeated
    key keeps its first position and its last value, as in a Python [dict]),
    numbers with a fraction or an exponent become the rational they
    denote. *)

Definition is_ws (c : ascii) : bool :=
  let n := N_of_ascii c in
  ((n =? 32) || (n =? 9) || (n =? 10) || (n =? 13))%N.

Fixpoint skip_ws (s : string) : string :=
  match s with
  | String c s' => if is_ws c then skip_ws s' else s
  | EmptyString => s
  end.

Definition digit_value (c : ascii) : option Z :=
  let n := N_of_ascii c in
  if ((48 <=? n) && (n <=? 57))%N then Some (Z.of_N (n - 48)) else None.

Definition hex_value (c : ascii) : option N :=
  let n := N_of_ascii c in
  if ((48 <=? n) && (n <=? 57))%N then Some (n - 48)%N
  else if ((97 <=? n) && (n <=? 102))%N then Some (n - 87)%N
  else if ((65 <=? n) && (n <=? 70))%N then Some (n - 55)%N
  else None.

(** The UTF-8 bytes of a code point. *)
Definition utf8_encode (cp : N) : string :=
  let byte (n : N) := ascii_of_N n in
  (if cp <? 128 then String (byte cp) EmptyString
   else if cp <? 2048 then
     String (byte (192 + cp / 64)) (String (byte (128 + cp mod 64)) EmptyString)
   else if cp <? 65536 then
     String (byte (224 + cp / 4096))
       (String (byte (128 + cp / 64 mod 64)) (String (byte (128 + cp mod 64)) EmptyString))
   else
     String (byte (240 + cp / 262144))
       (String (byte (128 + cp / 4096 mod 64))
         (String (byte (128 + cp / 64 mod 64))
           (String (byte (128 + cp mod 64)) EmptyString))))%N.

Inductive string_state : Type :=
  | SPlain
  | SEscape
  | SHex (left : nat) (acc : N).

Definition prepend (t : string) (r : option (string * string)) : option (string * string) :=
  match r with
  | Some (body, rest) => Some (t +:+ body, rest)
  | None => None
  end.

(** Reads a string after its opening quote and returns the text and what
    follows the closing quote.  [hi] holds a high surrogate that waits for
    its low half. *)
Fixpoint parse_string_go (st : string_state) (hi : option N) (s : string)
  : option (string * string) :=
  match s with
  | EmptyString => None
  | String c s' =>
      let n := N_of_ascii c in
      match st, hi with
      | SPlain, None =>
          if (n =? 34)%N then Some (EmptyString, s')
          else if (n =? 92)%N then parse_string_go SEscape None s'
          else if (n <? 32)%N then None
          else prepend (String c EmptyString) (parse_string_go SPlain None s')
      | SPlain, Some _ =>
          if (n =? 92)%N then parse_string_go SEscape hi s' else None
      | SEscape, None =>
          if (n =? 117)%N then parse_string_go (SHex 4 0%N) None s'
          else
            match
              (if (n =? 34)%N then Some 34 else if (n =? 92)%N then Some 92
               else if (n =? 47)%N then Some 47 else if (n =? 98)%N then Some 8
               else if (n =? 102)%N then Some 12 else if (n =? 110)%N then Some 10
               else if (n =? 114)%N then Some 13 else if (n =? 116)%N then Some 9
               else None)%N
            with
            | Some k => prepend (String (ascii_of_N k) EmptyString)
                                (parse_string_go SPlain None s')
            | None => None
            end
      | SEscape, Some _ =>
          if (n =? 117)%N then parse_string_go (SHex 4 0%N) hi s' else None
      | SHex (S k) acc, _ =>
          match hex_value c with
          | None => None
          | Some d =>
              let cp := (acc * 16 + d)%N in
              match k, hi with
              | S _, _ => parse_string_go (SHex k cp) hi s'
              | O, None =>
                  if ((55296 <=? cp) && (cp <? 56320))%N
                  then parse_string_go SPlain (Some cp) s'
                  else if ((56320 <=? cp) && (cp <? 57344))%N then None
                  else prepend (utf8_encode cp) (parse_string_go SPlain None s')
              | O, Some h =>
                  if ((56320 <=? cp) && (cp <? 57344))%N
                  then prepend (utf8_encode (65536 + (h - 55296) * 1024 + (cp - 56320))%N)
                               (parse_string_go SPlain None s')
                  else None
              end
          end
      | SHex O _, _ => None
      end
  end.

Definition parse_string (s : string) : option (string * string) :=
  parse_string_go SPlain None s.

(** Reads a run of decimal digits: their value, their number and the rest. *)
Fixpoint take_digits (acc : Z) (count : nat) (s : string) : Z * nat * string :=
  match s with
  | String c s' =>
      match digit_value c with
      | Some d => take_digits (10 * acc + d) (S count) s'
      | None => (acc, count, s)
      end
  | EmptyString => (acc, count, s)
  end.

Definition starts_with_digit (s : string) : bool :=
  match s with
  | String c _ => match digit_value c with Some _ => true | None => false end
  | EmptyString => false
  end.

(** [10 ^ e] as a rational, for any integer [e]. *)
Definition pow10 (e : Z) : Q :=
  if e <? 0 then 1 # Z.to_pos (10 ^ (- e)) else inject_Z (10 ^ e).

(** A JSON number, without its sign: an integer part with no superfluous
    leading zero, then an optional fraction and an optional exponent. *)
Definition parse_unsigned (s : string) : option (Q * bool * string) :=
  let '(ip, n, s1) := take_digits 0 O s in
  match n with
  | O => None
  | S _ =>
      if (match s with String "0" _ => Nat.ltb 1 n | _ => false end) then None
      else
        let frac :=
          match s1 with
          | String "." s2 =>
              let '(fp, m, s3) := take_digits 0 O s2 in
              match m with
              | O => None
              | S _ => Some (inject_Z ip + inject_Z fp * pow10 (- Z.of_nat m), true, s3)%Q
              end
          | _ => Some (inject_Z ip, false, s1)
          end in
        match frac with
        | None => None
        | Some (q, is_float, s3) =>
            let exponent (neg : bool) (s4 : string) :=
              let '(e, k, s5) := take_digits 0 O s4 in
              match k with
              | O => None
              | S _ => Some ((q * pow10 (if neg then - e else e))%Q, true, s5)
              end in
            match s3 with
            | String c s4 =>
                if ((N_of_ascii c =? 101) || (N_of_ascii c =? 69))%N then
                  match s4 with
                  | String "-" s5 => exponent true s5
                  | String "+" s5 => exponent false s5
                  | _ => exponent false s4
                  end
                else Some (q, is_float, s3)
            | EmptyString => Some (q, is_float, s3)
            end
        end
  end.

Definition parse_number (s : string) : option (scalar * string) :=
  let finish (neg : bool) (r : option (Q * bool * string)) :=
    match r with
    | Some (q, true, rest) => Some (VFloat (Qred (if neg then - q else q)), rest)
    | Some (q, false, rest) => Some (VInt (if neg then - Qnum q else Qnum q), rest)
    | None => None
    end in
  match s with
  | String "-" s' => finish true (parse_unsigned s')
  | _ => finish false (parse_unsigned s)
  end.

(** [d[k] = v] on an association list. *)
Fixpoint assoc_set (d : list (string * pyval)) (k : string) (v : pyval)
  : list (string * pyval) :=
  match d with
  | [] => [(k, v)]
  | (k', v') :: d' =>
      if bool_decide (k' = k) then (k', v) :: d' else (k', v') :: assoc_set d' k v
  end.

Definition strip_prefix (p s : string) : option string :=
  if String.prefix p s then Some (String.substring (String.length p) (String.length s - String.length p) s)
  else None.

Fixpoint parse_value (fuel : nat) (s : string) {struct fuel} : option (pyval * string) :=
  match fuel with
  | O => None
  | S fuel' =>
      match s with
      | String "{" s1 =>
          match skip_ws s1 with
          | String "}" s2 => Some (PDict [], s2)
          | s2 => parse_members fuel' [] s2
          end
      | String "[" s1 =>
          match skip_ws s1 with
          | String "]" s2 => Some (PList [], s2)
          | s2 => parse_elements fuel' [] s2
          end
      | String "034" s1 =>
          match parse_string s1 with
          | Some (t, rest) => Some (PAtom (VStr t), rest)
          | None => None
          end
      | String "t" _ =>
          match strip_prefix "true" s with
          | Some rest => Some (PAtom (VBool true), rest)
          | None => None
          end
      | String "f" _ =>
          match strip_prefix "false" s with
          | Some rest => Some (PAtom (VBool false), rest)
          | None => None
          end
      | String "n" _ =>
          match strip_prefix "null" s with
          | Some rest => Some (PAtom VNone, rest)
          | None => None
          end
      | _ =>
          match parse_number s with
          | Some (a, rest) => Some (PAtom a, rest)
          | None => None
          end
      end
  end

(** The elements of an array from the first one on; [acc] holds those
    already read, in reverse. *)
with parse_elements (fuel : nat) (acc : list pyval) (s : string) {struct fuel}
  : option (pyval * string) :=
  match fuel with
  | O => None
  | S fuel' =>
      match parse_value fuel' s with
      | None => None
      | Some (v, rest) =>
          match skip_ws rest with
          | String "," s1 => parse_elements fuel' (v :: acc) (skip_ws s1)
          | String "]" s1 => Some (PList (rev (v :: acc)), s1)
          | _ => None
          end
      end
  end

(** The members of an object from the first key on. *)
with parse_members (fuel : nat) (acc : list (string * pyval)) (s : string) {struct fuel}
  : option (pyval * string) :=
  match fuel with
  | O => None
  | S fuel' =>
      match s with
      | String "034" s1 =>
          match parse_string s1 with
          | None => None
          | Some (k, rest) =>
              match skip_ws rest with
              | String ":" s2 =>
                  match parse_value fuel' (skip_ws s2) with
                  | None => None
                  | Some (v, rest') =>
                      match skip_ws rest' with
                      | String "," s3 => parse_members fuel' (assoc_set acc k v) (skip_ws s3)
                      | String "}" s3 => Some (PDict (assoc_set acc k v), s3)
                      | _ => None
                      end
                  end
              | _ => None
              end
          end
      | _ => None
      end
  end.

(** [json.loads(s)]; [None] stands for a decoding error. *)
Definition json_loads (s : string) : option pyval :=
  match parse_value (S (String.length s)) (skip_ws s) with
  | Some (v, rest) =>
      match skip_ws rest with
      | EmptyString => Some v
      | String _ _ => None
      end
  | None => None
  end.

(** ** Control flow and built-ins *)

Section Program.

Context {Ext : Type}.

(** [for x in l: body], with the local variables the body assigns to
    threaded through as [s]. *)
Fixpoint for_each {A S : Type} (l : list A) (body : A -> S -> M Ext S) (s : S)
  : M Ext S :=
  match l with
  | [] => ret s
  | x :: l' => s' <- body x s ;; for_each l' body s'
  end.

(** [float(n)] for an integer [n], as [+] converts it when the other operand
    is a float: an integer that rounds beyond the largest float has none. *)
Definition float_of_int (n : Z) : option Q :=
  if Z.abs n <? 2 ^ 1024 - 2 ^ 970 then Some (inject_Z n) else None.

(** [a + b] on the numeric scalars; [bool] counts as [int].  Integers add
    exactly.  With a float operand an integer is converted first, which
    raises [OverflowError] when it is too large; the float sum itself is
    exact here: its rounding and its overflow to infinity are not
    modelled. *)
Definition py_add (a b : scalar) : M Ext scalar :=
  match a, b with
  | VInt x, VInt y => ret (VInt (x + y))
  | VInt x, VBool y => ret (VInt (x + Z.b2z y))
  | VBool x, VInt y => ret (VInt (Z.b2z x + y))
  | VBool x, VBool y => ret (VInt (Z.b2z x + Z.b2z y))
  | VInt x, VFloat y =>
      match float_of_int x with
      | Some fx => ret (VFloat (Qred (fx + y)))
      | None => raise OverflowError
      end
  | VBool x, VFloat y => ret (VFloat (Qred (inject_Z (Z.b2z x) + y)))
  | VFloat x, VInt y =>
      match float_of_int y with
      | Some fy => ret (VFloat (Qred (x + fy)))
      | None => raise OverflowError
      end
  | VFloat x, VBool y => ret (VFloat (Qred (x + inject_Z (Z.b2z y))))
  | VFloat x, VFloat y => ret (VFloat (Qred (x + y)))
  | _, _ => raise TypeError
  end.

(** [sum(xs)]: starts from the integer [0] and adds from left to right. *)
Definition py_sum (xs : list scalar) : M Ext scalar :=
  for_each xs (fun x acc => py_add acc x) (VInt 0).

(** [len(l)] as a Python integer. *)
Definition py_len {A : Type} (l : list A) : scalar := VInt (Z.of_nat (length l)).

End Program.

(** ** The script *)

Definition workflow_steps : list (gmap string scalar) :=
  [ dict_literal
      [ ("name", VStr "Browse Company Website");
        ("url", VStr "https://example.com");
        ("action", VStr "Extract company information and metadata") ];
    dict_literal
      [ ("name", VStr "Browse News Article");
        ("url", VStr "https://httpbin.org/html");
        ("action", VStr "Extract article content and entities") ];
    dict_literal
      [ ("name", VStr "KG Integration");
        ("action", VStr "Store extracted information in knowledge graph") ] ].

Definition kg_operations : list string :=
  [ "INSERT company data triples";
    "INSERT entity relationships";
    "Run inference on new data";
    "Update entity embeddings" ].

(** The dictionary built in place of an API call; only [url] comes from the
    step. *)
Definition mock_result (url : scalar) : gmap string scalar :=
  dict_literal
    [ ("url", url);
      ("success", VBool true);
      ("extraction_time", VFloat (5 # 2));
      ("content_length", VInt 15432);
      ("entities_found", VInt 8);
      ("kg_triples_added", VInt 12) ].

Definition workflow_def : pyval :=
  PDict
    [ ("name", PAtom (VStr "Content Extraction Pipeline"));
      ("steps",
        PList
          [ PDict [ ("type", PAtom (VStr "browse"));
                    ("url", PAtom (VStr "https://example.com"));
                    ("extract", PAtom (VStr "metadata")) ];
            PDict [ ("type", PAtom (VStr "browse"));
                    ("url", PAtom (VStr "https://httpbin.org/html"));
                    ("extract", PAtom (VStr "content")) ];
            PDict [ ("type", PAtom (VStr "kg_update"));
                    ("source", PAtom (VStr "extracted_data")) ];
            PDict [ ("type", PAtom (VStr "inference"));
                    ("model", PAtom (VStr "kg_embeddings")) ] ]);
      ("output",
        PDict [ ("kg_triples", PAtom (VStr "generated"));
                ("entities", PAtom (VStr "extracted"));
                ("embeddings", PAtom (VStr "updated")) ]) ].

Section Script.

Context {Ext : Type}.

(** The inner loop over [kg_operations]; [delay] is the argument of
    [time.sleep], [0.5] in the script. *)
Definition kg_loop (delay : Q) : M Ext unit :=
  for_each kg_operations
    (fun op _ => print ("   🔄 " +:+ op +:+ "...") ;;; sleep delay) tt.

(** The body of [for step in workflow_steps], with the local list
    [results] passed in and out. *)
Definition loop_body (delay : Q) (step : gmap string scalar)
    (results : list (gmap string scalar)) : M Ext (list (gmap string scalar)) :=
  name <- getitem step "name" ;;
  print (nl +:+ "🎯 Step: " +:+ py_str name) ;;;
  if dict_contains step "url" then
    url <- getitem step "url" ;;
    print ("   🌐 URL: " +:+ py_str url) ;;;
    action <- getitem step "action" ;;
    print ("   🎬 Action: " +:+ py_str action) ;;;
    url <- getitem step "url" ;;
    let mock_result := mock_result url in
    let results := results ++ [mock_result] in
    success <- getitem mock_result "success" ;;
    print ("   ✅ Success: " +:+ py_str success) ;;;
    extraction_time <- getitem mock_result "extraction_time" ;;
    print ("   ⏱️  Time: " +:+ py_str extraction_time +:+ "s") ;;;
    content_length <- getitem mock_result "content_length" ;;
    print ("   📄 Content: " +:+ py_str content_length +:+ " chars") ;;;
    entities_found <- getitem mock_result "entities_found" ;;
    print ("   🏷️  Entities: " +:+ py_str entities_found) ;;;
    kg_triples_added <- getitem mock_result "kg_triples_added" ;;
    print ("   🧠 KG Triples: " +:+ py_str kg_triples_added) ;;;
    ret results
  else
    name <- getitem step "name" ;;
    if py_eq_str name "KG Integration" then
      action <- getitem step "action" ;;
      print ("   🎬 Action: " +:+ py_str action) ;;;
      kg_loop delay ;;;
      print "   ✅ KG integration completed" ;;;
      ret results
    else
      ret results.

(** The procedure up to its last statement, returning the final value of
    the local [results]. *)
Definition workflow_with_delay (delay : Q) : M Ext (list (gmap string scalar)) :=
  print "🔄 Browser Automation Workflow Demo" ;;;
  print (str_mul "=" 40) ;;;
  results <- for_each workflow_steps (loop_body delay) [] ;;
  print (nl +:+ "📊 Workflow Summary:") ;;;
  print ("   Total steps: " +:+ py_str (py_len workflow_steps)) ;;;
  print ("   URLs processed: "
         +:+ py_str (py_len (List.filter (fun r => dict_contains r "url") results))) ;;;
  entities <- py_sum (map (fun r => dict_get_default r "entities_found" (VInt 0)) results) ;;
  print ("   Total entities extracted: " +:+ py_str entities) ;;;
  triples <- py_sum (map (fun r => dict_get_default r "kg_triples_added" (VInt 0)) results) ;;
  print ("   Total KG triples added: " +:+ py_str triples) ;;;
  print (nl +:+ "🎯 Workflow Benefits:") ;;;
  print "   • Automated end-to-end processing" ;;;
  print "   • Consistent data extraction" ;;;
  print "   • Integrated KG updates" ;;;
  print "   • Error handling and retries" ;;;
  print "   • Performance monitoring" ;;;
  print (nl +:+ "📋 Workflow Definition (JSON):") ;;;
  print (json_dumps 2 workflow_def) ;;;
  ret results.

(** [demo_browser_workflow()]: no parameter, no return value. *)
Definition demo_browser_workflow : M Ext unit :=
  workflow_with_delay (1 # 2) ;;; ret tt.

End Script.

(** * Properties *)

(** ** Reading a run *)

Fixpoint join (l : list string) : string :=
  match l with
  | [] => EmptyString
  | s :: l' => s +:+ join l'
  end.

(** The text on standard output, given the chunks written, newest first. *)
Definition text_of (chunks : list string) : string := join (rev chunks).

(** The lines of a text, split at every line feed. *)
Fixpoint lines (s : string) : list string :=
  match s with
  | EmptyString => [EmptyString]
  | String c s' =>
      if (N_of_ascii c =? 10)%N then EmptyString :: lines s'
      else
        match lines s' with
        | l :: ls => String c l :: ls
        | [] => [String c EmptyString]
        end
  end.

Definition is_step_header (line : string) : bool :=
  starts_with "🎯 Step: " line.

(** The lines that follow the line [heading], up to the next empty line. *)
Fixpoint drop_until (heading : string) (ls : list string) : list string :=
  match ls with
  | [] => []
  | l :: ls' => if bool_decide (l = heading) then ls' else drop_until heading ls'
  end.

Fixpoint take_paragraph (ls : list string) : list string :=
  match ls with
  | [] => []
  | l :: ls' => if bool_decide (l = EmptyString) then [] else l :: take_paragraph ls'
  end.

Definition section_of (heading : string) (ls : list string) : list string :=
  take_paragraph (drop_until heading ls).

(** The chunk that opens an iteration, and the test that recognises one. *)
Definition header_chunk (name : scalar) : string :=
  (nl +:+ "🎯 Step: " +:+ py_str name) +:+ nl.

Definition is_header_chunk (chunk : string) : bool :=
  starts_with (nl +:+ "🎯 Step: ") chunk.

(** The record a step contributes to [results], and the header chunk it
    prints, when it has the key. *)
Definition record_of (step : gmap string scalar) : option (gmap string scalar) :=
  mock_result <$> step !! "url".

Definition header_of (step : gmap string scalar) : option string :=
  header_chunk <$> step !! "name".

(** What a mock result holds besides the URL. *)
Definition literal_record (r : gmap string scalar) : Prop :=
  dom r = list_to_set [ "url"; "success"; "extraction_time"; "content_length";
                        "entities_found"; "kg_triples_added" ]
  /\ size r = 6%nat
  /\ r !! "success" = Some (VBool true)
  /\ r !! "extraction_time" = Some (VFloat (5 # 2))
  /\ r !! "content_length" = Some (VInt 15432)
  /\ r !! "entities_found" = Some (VInt 8)
  /\ r !! "kg_triples_added" = Some (VInt 12).

Definition has_url (r : gmap string scalar) : Prop := dict_contains r "url" = true.

(** ** The run of the script from the empty world *)

Definition empty_world : world unit := World [] [] tt.

Definition script_results : list (gmap string scalar) :=
  [ mock_result (VStr "https://example.com");
    mock_result (VStr "https://httpbin.org/html") ].

(** The chunks the whole script writes, newest first. *)
Definition script_output : list string :=
  Eval vm_compute in stdout (snd (workflow_with_delay (1 # 2) empty_world)).

(** The chunks its loop writes, and the world the loop ends in. *)
Definition loop_output : list string :=
  Eval vm_compute in
    stdout (snd (for_each workflow_steps (loop_body (1 # 2)) [] empty_world)).

Definition loop_world : world unit :=
  World loop_output [1 # 2; 1 # 2; 1 # 2; 1 # 2] tt.

(** ** Parts of the script read on their own *)

Section Parts.

Context {Ext : Type}.

(** The five summary prints, for any value of the locals [workflow_steps]
    and [results]. *)
Definition print_summary (steps results : list (gmap string scalar)) : M Ext unit :=
  print (nl +:+ "📊 Workflow Summary:") ;;;
  print ("   Total steps: " +:+ py_str (py_len steps)) ;;;
  print ("   URLs processed: "
         +:+ py_str (py_len (List.filter (fun r => dict_contains r "url") results))) ;;;
  entities <- py_sum (map (fun r => dict_get_default r "entities_found" (VInt 0)) results) ;;
  print ("   Total entities extracted: " +:+ py_str entities) ;;;
  triples <- py_sum (map (fun r => dict_get_default r "kg_triples_added" (VInt 0)) results) ;;
  print ("   Total KG triples added: " +:+ py_str triples).

(** The prints that follow the summary. *)
Definition print_benefits_and_definition : M Ext unit :=
  print (nl +:+ "🎯 Workflow Benefits:") ;;;
  print "   • Automated end-to-end processing" ;;;
  print "   • Consistent data extraction" ;;;
  print "   • Integrated KG updates" ;;;
  print "   • Error handling and retries" ;;;
  print "   • Performance monitoring" ;;;
  print (nl +:+ "📋 Workflow Definition (JSON):") ;;;
  print (json_dumps 2 workflow_def).

End Parts.

(** The steps on which the loop runs the knowledge-graph branch. *)
Definition is_kg_step (step : gmap string scalar) : bool :=
  negb (dict_contains step "url")
  && match step !! "name" with
     | Some name => py_eq_str name "KG Integration"
     | None => false
     end.

(** The values [+] accepts. *)
Definition is_number (v : scalar) : bool :=
  match v with
  | VBool _ | VInt _ | VFloat _ => true
  | VNone | VStr _ => false
  end.

Definition is_float (v : scalar) : bool :=
  match v with
  | VFloat _ => true
  | _ => false
  end.

(** The steps whose 'name', 'url' and 'action', where present, are strings,
    as in the script: the loop then formats nothing but text. *)
Definition text_fields (step : gmap string scalar) : bool :=
  forallb (fun k => match step !! k with
                    | Some (VStr _) | None => true
                    | Some _ => false
                    end)
    [ "name"; "url"; "action" ].

(** The integers [str] writes out under the interpreter's default limit of
    4300 digits. *)
Definition int_str_ok (z : Z) : bool :=
  Nat.leb (String.length (pretty (Z.abs z))) 4300.


(** Closes an equation between closed terms by evaluating both sides. *)
Ltac by_vm :=
  lazymatch goal with
  | |- _ = ?r => vm_cast_no_check (eq_refl r)
  end.

(** ** Lemmas on text *)

Lemma append_assoc (a b c : string) : (a +:+ b) +:+ c = a +:+ b +:+ c.
Proof.
  induction a as [|ch a IH]; [reflexivity|].
  change (String ch ((a +:+ b) +:+ c) = String ch (a +:+ b +:+ c)). by rewrite IH.
Qed.

Lemma join_app (l1 l2 : list string) : join (l1 ++ l2) = join l1 +:+ join l2.
Proof.
  induction l1 as [|a l1 IH]; [reflexivity|].
  cbn [app join]. by rewrite IH, append_assoc.
Qed.

Lemma text_of_app (newer older : list string) :
  text_of (newer ++ older) = text_of older +:+ text_of newer.
Proof. unfold text_of. by rewrite rev_app_distr, join_app. Qed.

Lemma header_chunk_is_header (name : scalar) :
  is_header_chunk (header_chunk name) = true.
Proof. reflexivity. Qed.

Lemma filter_none {A : Type} (f : A -> bool) (l : list A) :
  Forall (fun x => f x = false) l -> List.filter f l = [].
Proof. induction 1 as [|x l Hx _ IH]; [reflexivity|]. cbn. by rewrite Hx. Qed.

Lemma filter_all {A : Type} (f : A -> bool) (l : list A) :
  Forall (fun x => f x = true) l -> List.filter f l = l.
Proof. induction 1 as [|x l Hx _ IH]; [reflexivity|]. cbn. by rewrite Hx, IH. Qed.

(** ** Lemmas on the mock results *)

Lemma mock_result_dom (u : scalar) :
  dom (mock_result u)
  = list_to_set [ "url"; "success"; "extraction_time"; "content_length";
                  "entities_found"; "kg_triples_added" ].
Proof.
  unfold mock_result, dict_literal. cbn [foldl fst snd].
  rewrite !dom_insert_L, dom_empty_L. set_solver.
Qed.

Lemma mock_result_literal (u : scalar) : literal_record (mock_result u).
Proof.
  split; [apply mock_result_dom|].
  split; [by rewrite <- size_dom, mock_result_dom|].
  repeat split.
Qed.

Lemma record_of_cons (step : gmap string scalar) (steps : list (gmap string scalar)) :
  omap record_of (step :: steps)
  = match step !! "url" with Some u => [mock_result u] | None => [] end
    ++ omap record_of steps.
Proof. cbn [omap list_omap]. unfold record_of. by destruct (step !! "url"). Qed.

Lemma record_of_literal (steps : list (gmap string scalar)) :
  Forall literal_record (omap record_of steps).
Proof.
  induction steps as [|step steps IH]; [constructor|].
  rewrite record_of_cons. destruct (step !! "url") as [u|]; [|done].
  constructor; [apply mock_result_literal | done].
Qed.

Lemma record_of_has_url (steps : list (gmap string scalar)) :
  Forall has_url (omap record_of steps).
Proof.
  induction steps as [|step steps IH]; [constructor|].
  rewrite record_of_cons. destruct (step !! "url"); [|done].
  constructor; [reflexivity | done].
Qed.

Lemma record_of_length (steps : list (gmap string scalar)) :
  length (omap record_of steps)
  = length (List.filter (fun s => dict_contains s "url") steps).
Proof.
  induction steps as [|step steps IH]; [reflexivity|].
  rewrite record_of_cons, length_app, IH. cbn [List.filter].
  unfold dict_contains at 2. by destruct (step !! "url").
Qed.

Lemma header_of_length (steps : list (gmap string scalar)) :
  Forall (fun s => is_Some (s !! "name")) steps ->
  length (omap header_of steps) = length steps.
Proof.
  induction 1 as [|s steps [n Hn] _ IH]; [reflexivity|].
  cbn [omap list_omap]. unfold header_of at 1. rewrite Hn. cbn. by rewrite IH.
Qed.

(** ** Lemmas on the loop *)

Section RunLemmas.

Context {Ext : Type}.
Implicit Types (w : world Ext) (step : gmap string scalar)
  (rs : list (gmap string scalar)) (d : Q).

(** The inner loop either sleeps four times or stops at its first sleep. *)
Lemma sleep_accepts d :
  sleep_ok d = true ->
  sleep (Ext := Ext) d
  = fun w => (Normal tt, World (stdout w) (d :: sleeps w) (ext w)).
Proof.
  unfold sleep_ok, sleep.
  destruct (Qle_bool sleep_limit d || Qle_bool d (- sleep_limit)), (Qle_bool 0 d);
    cbn [negb andb]; (discriminate || reflexivity).
Qed.

Lemma sleep_result d w :
  sleep d w
  = if sleep_ok d then (Normal tt, World (stdout w) (d :: sleeps w) (ext w))
    else if Qle_bool sleep_limit d || Qle_bool d (- sleep_limit)
    then (Raise OverflowError, w)
    else (Raise ValueError, w).
Proof.
  unfold sleep_ok, sleep.
  by destruct (Qle_bool sleep_limit d || Qle_bool d (- sleep_limit)), (Qle_bool 0 d).
Qed.

Lemma kg_loop_run d w :
  sleep_ok d = true ->
  exists body,
    kg_loop d w = (Normal tt, World (body ++ stdout w) ([d; d; d; d] ++ sleeps w) (ext w))
    /\ Forall (fun c => is_header_chunk c = false) body
    /\ length body = 4%nat.
Proof.
  intros Hd. unfold kg_loop, kg_operations. cbn [for_each].
  rewrite (sleep_accepts d Hd). unfold bind, print, ret. cbn [stdout sleeps ext].
  eexists [_; _; _; _]. split; [reflexivity|].
  split; [repeat constructor | reflexivity].
Qed.

Lemma kg_loop_normal d w u w' :
  kg_loop d w = (Normal u, w') -> sleep_ok d = true.
Proof.
  unfold kg_loop, kg_operations. cbn [for_each].
  unfold bind at 1 2, print at 1. rewrite sleep_result.
  destruct (sleep_ok d); [reflexivity|].
  by destruct (Qle_bool sleep_limit d || Qle_bool d (- sleep_limit)).
Qed.

(** One iteration that completes: the step has a name, whose header is the
    first chunk written and the only header; [results] grows by the mock
    result exactly when the step has a URL; the rest of the world stays. *)
Lemma loop_body_run d step rs w rs' w' :
  loop_body d step rs w = (Normal rs', w') ->
  exists name body,
    step !! "name" = Some name
    /\ rs' = match step !! "url" with Some u => rs ++ [mock_result u] | None => rs end
    /\ stdout w' = body ++ header_chunk name :: stdout w
    /\ Forall (fun c => is_header_chunk c = false) body
    /\ ext w' = ext w.
Proof.
  unfold loop_body, bind, getitem, dict_contains, print, ret, raise.
  destruct (step !! "name") as [n|]; [|discriminate].
  destruct (step !! "url") as [u|].
  - destruct (step !! "action") as [a|]; [|discriminate].
    cbn. intros [= <- <-]. exists n. eexists [_; _; _; _; _; _; _].
    split; [reflexivity|]. split; [reflexivity|]. split; [reflexivity|].
    split; [repeat constructor | reflexivity].
  - destruct (py_eq_str n "KG Integration").
    + destruct (step !! "action") as [a|]; [|discriminate].
      cbn [stdout sleeps ext].
      match goal with |- context [kg_loop d ?w0] =>
        destruct (kg_loop d w0) as [[[]|e] w1] eqn:Hkg; [|discriminate];
        destruct (kg_loop_run d w0 (kg_loop_normal _ _ _ _ Hkg)) as (body & Hrun & Hbody & _)
      end.
      rewrite Hkg in Hrun. injection Hrun as ->.
      intros [= <- <-]. exists n. eexists (_ :: body ++ [_]).
      split; [reflexivity|]. split; [reflexivity|].
      split; [cbn; by rewrite <- app_assoc|].
      split; [|reflexivity].
      constructor; [reflexivity|]. apply Forall_app. split; [done|]. repeat constructor.
    + intros [= <- <-]. exists n, []. repeat split; constructor.
Qed.

(** A loop that completes, by induction on the steps. *)
Lemma for_each_run d steps : forall rs w rs' w',
  for_each steps (loop_body d) rs w = (Normal rs', w') ->
  exists out,
    stdout w' = out ++ stdout w
    /\ rs' = rs ++ omap record_of steps
    /\ List.filter is_header_chunk (rev out) = omap header_of steps
    /\ Forall (fun s => is_Some (s !! "name")) steps
    /\ ext w' = ext w.
Proof.
  induction steps as [|step steps IH]; intros rs w rs' w'.
  - intros [= <- <-]. exists []. by rewrite app_nil_r.
  - cbn [for_each]. unfold bind at 1.
    destruct (loop_body d step rs w) as [[rs1|e] w1] eqn:Hbody; [|discriminate].
    intros Hrest.
    apply loop_body_run in Hbody as (n & body & Hn & -> & Hout & Hnohdr & Hext).
    apply IH in Hrest as (out & Hout' & -> & Hhdr & Hnames & Hext').
    exists (out ++ body ++ [header_chunk n]).
    assert (header_of step = Some (header_chunk n)) as Hh
      by (unfold header_of; by rewrite Hn).
    split; [by rewrite Hout', Hout, <- !app_assoc|].
    split.
    { rewrite record_of_cons. destruct (step !! "url"); by rewrite <- ?app_assoc. }
    split.
    { rewrite !rev_app_distr. cbn [rev app omap list_omap]. rewrite Hh.
      cbn [List.filter]. rewrite header_chunk_is_header.
      by rewrite List.filter_app, (filter_none _ (rev body) (List.Forall_rev Hnohdr)), Hhdr. }
    split; [constructor; [by rewrite Hn|done]|congruence].
Qed.

(** The loop of the script, from any world and for any delay that
    [time.sleep] accepts. *)
Lemma loop_run d w :
  sleep_ok d = true ->
  for_each workflow_steps (loop_body d) [] w
  = (Normal script_results,
     World (loop_output ++ stdout w) ([d; d; d; d] ++ sleeps w) (ext w)).
Proof.
  intros Hd. destruct w as [o z x]. unfold loop_body, kg_loop.
  rewrite (sleep_accepts d Hd). by_vm.
Qed.

(** The whole script likewise. *)
Lemma workflow_run d w :
  sleep_ok d = true ->
  workflow_with_delay d w
  = (Normal script_results,
     World (script_output ++ stdout w) ([d; d; d; d] ++ sleeps w) (ext w)).
Proof.
  intros Hd. destruct w as [o z x]. unfold workflow_with_delay, loop_body, kg_loop.
  rewrite (sleep_accepts d Hd). by_vm.
Qed.

Lemma demo_run w :
  demo_browser_workflow w
  = (Normal tt,
     World (script_output ++ stdout w)
           ([1 # 2; 1 # 2; 1 # 2; 1 # 2] ++ sleeps w) (ext w)).
Proof.
  unfold demo_browser_workflow, bind. by rewrite workflow_run.
Qed.

End RunLemmas.


Lemma loop_run_empty :
  for_each workflow_steps (loop_body (1 # 2)) [] empty_world
  = (Normal script_results, loop_world).
Proof. by_vm. Qed.

(** ** The claims *)

(** C1: run from any world, the script prints a summary whose four lines
    read "Total steps: 3", "URLs processed: 2", "Total entities extracted:
    16" and "Total KG triples added: 24"; [results] then holds two records,
    each with 8 entities and 12 triples, and the two totals are the sums of
    those fields over [results]. *)
Theorem summary_reports_totals {Ext : Type} (w : world Ext) :
  exists w',
    workflow_with_delay (1 # 2) w = (Normal script_results, w')
    /\ demo_browser_workflow w = (Normal tt, w')
    /\ stdout w' = script_output ++ stdout w
    /\ section_of "📊 Workflow Summary:" (lines (text_of script_output))
       = [ "   Total steps: 3"; "   URLs processed: 2";
           "   Total entities extracted: 16"; "   Total KG triples added: 24" ]
    /\ py_len workflow_steps = VInt 3
    /\ py_len (List.filter (fun r => dict_contains r "url") script_results) = VInt 2
    /\ length script_results = 2%nat
    /\ Forall (fun r => dict_get_default r "entities_found" (VInt 0) = VInt 8
                       /\ dict_get_default r "kg_triples_added" (VInt 0) = VInt 12)
              script_results
    /\ py_sum (map (fun r => dict_get_default r "entities_found" (VInt 0)) script_results) w'
       = (Normal (VInt (8 + 8)), w')
    /\ py_sum (map (fun r => dict_get_default r "kg_triples_added" (VInt 0)) script_results) w'
       = (Normal (VInt (12 + 12)), w')
    /\ VInt (8 + 8) = VInt 16
    /\ VInt (12 + 12) = VInt 24.
Proof.
  eexists. split; [by apply workflow_run|].
  split; [apply demo_run|].
  split; [reflexivity|].
  split; [by vm_compute|].
  repeat split; try reflexivity.
  repeat constructor.
Qed.

(** C2: the loop over [workflow_steps] is exactly three runs of its body,
    on 'Browse Company Website', 'Browse News Article' and 'KG Integration'
    in that order, and the output carries one step header per run, in the
    same order.  For any list of steps, a loop that completes has printed
    one header chunk per step. *)
Theorem loop_runs_three_steps_in_order {Ext : Type} (w : world Ext) :
  (exists s1 s2 s3,
     workflow_steps = [s1; s2; s3]
     /\ s1 !! "name" = Some (VStr "Browse Company Website")
     /\ s2 !! "name" = Some (VStr "Browse News Article")
     /\ s3 !! "name" = Some (VStr "KG Integration")
     /\ forall d rs,
          for_each workflow_steps (loop_body (Ext := Ext) d) rs
          = (rs1 <- loop_body d s1 rs ;;
             rs2 <- loop_body d s2 rs1 ;;
             rs3 <- loop_body d s3 rs2 ;;
             ret rs3))
  /\ (exists w',
        demo_browser_workflow w = (Normal tt, w')
        /\ stdout w' = script_output ++ stdout w)
  /\ List.filter is_step_header (lines (text_of script_output))
     = [ "🎯 Step: Browse Company Website";
         "🎯 Step: Browse News Article";
         "🎯 Step: KG Integration" ]
  /\ List.filter is_header_chunk (rev script_output) = omap header_of workflow_steps
  /\ (forall d steps rs (w1 : world Ext) rs' w1',
        for_each steps (loop_body d) rs w1 = (Normal rs', w1') ->
        exists out,
          stdout w1' = out ++ stdout w1
          /\ List.filter is_header_chunk (rev out) = omap header_of steps
          /\ length (omap header_of steps) = length steps).
Proof.
  split.
  { eexists _, _, _. split; [reflexivity|]. repeat split; reflexivity. }
  split; [eexists; split; [apply demo_run | reflexivity]|].
  split; [by vm_compute|].
  split; [by vm_compute|].
  intros d steps rs w1 rs' w1' Hrun.
  apply for_each_run in Hrun as (out & Hout & _ & Hhdr & Hnames & _).
  exists out. split; [done|]. split; [done|]. by apply header_of_length.
Qed.

Lemma loop_runs_three_steps_in_order_witness :
  exists out,
    loop_output = out ++ []
    /\ List.filter is_header_chunk (rev out) = omap header_of workflow_steps
    /\ length (omap header_of workflow_steps) = length workflow_steps.
Proof.
  exact (proj2 (proj2 (proj2 (proj2 (loop_runs_three_steps_in_order empty_world))))
           (1 # 2) workflow_steps [] empty_world script_results loop_world
           loop_run_empty).
Defined.

(** C3: the last thing the script prints is [json.dumps(workflow_def,
    indent=2)]; read back, that text is [workflow_def], an object with the
    keys [name], [steps] and [output], where [steps] has 4 entries and
    [output] has 3 keys. *)
Theorem printed_json_reads_back {Ext : Type} (w : world Ext) :
  exists w' doc earlier name steps output,
    demo_browser_workflow w = (Normal tt, w')
    /\ stdout w' = doc :: earlier
    /\ doc = json_dumps 2 workflow_def +:+ nl
    /\ json_loads doc = Some workflow_def
    /\ json_loads (json_dumps 2 workflow_def) = Some workflow_def
    /\ workflow_def
       = PDict [ ("name", name); ("steps", PList steps); ("output", PDict output) ]
    /\ length steps = 4%nat
    /\ length output = 3%nat
    /\ NoDup (map fst output).
Proof.
  eexists _, _, _, _, _, _. split; [apply demo_run|].
  cbn [stdout]. split; [reflexivity|].
  split; [reflexivity|].
  split; [by vm_compute|].
  split; [by vm_compute|].
  split; [reflexivity|].
  split; [reflexivity|].
  split; [reflexivity|].
  apply (bool_decide_unpack _). by vm_compute.
Qed.

(** C4: run from any world, the script ends without raising: every
    subscript on a step or on a mock result finds its key, the output holds
    one header per step and no header twice, although it also holds the
    line about error handling and retries. *)
Theorem demo_raises_nothing {Ext : Type} (w : world Ext) :
  (exists w',
     demo_browser_workflow w = (Normal tt, w')
     /\ stdout w' = script_output ++ stdout w)
  /\ Forall (fun step =>
       (exists v, getitem step "name" w = (Normal v, w))
       /\ (exists v, getitem step "action" w = (Normal v, w))
       /\ (dict_contains step "url" = true ->
           exists v, getitem step "url" w = (Normal v, w)))
     workflow_steps
  /\ (forall u,
        Forall (fun k => exists v, getitem (mock_result u) k w = (Normal v, w))
          [ "success"; "extraction_time"; "content_length";
            "entities_found"; "kg_triples_added" ])
  /\ List.filter is_header_chunk (rev script_output) = omap header_of workflow_steps
  /\ length (omap header_of workflow_steps) = length workflow_steps
  /\ NoDup (omap header_of workflow_steps)
  /\ ("   • Error handling and retries" +:+ nl) ∈ script_output.
Proof.
  split; [eexists; split; [apply demo_run | reflexivity]|].
  split.
  { repeat constructor; try (eexists; reflexivity); discriminate. }
  split.
  { intros u. repeat constructor; eexists; reflexivity. }
  split; [by vm_compute|].
  split; [reflexivity|].
  split.
  { apply (bool_decide_unpack _). by vm_compute. }
  apply (bool_decide_unpack _). by vm_compute.
Qed.

(** C6: every record the loop appends to [results], whatever the steps, has
    exactly the keys url, success, extraction_time, content_length,
    entities_found and kg_triples_added, with success True, extraction_time
    2.5, content_length 15432, entities_found 8 and kg_triples_added 12;
    so have the records the script ends with. *)
Theorem appended_records_are_literal {Ext : Type} (w : world Ext) :
  (forall d steps rs0 rs (w1 w1' : world Ext),
     for_each steps (loop_body d) rs0 w1 = (Normal rs, w1') ->
     exists appended, rs = rs0 ++ appended /\ Forall literal_record appended)
  /\ (exists w',
        for_each workflow_steps (loop_body (1 # 2)) [] w = (Normal script_results, w')
        /\ Forall literal_record script_results)
  /\ (forall u, literal_record (mock_result u))
  /\ py_str (VFloat (5 # 2)) = "2.5".
Proof.
  split.
  { intros d steps rs0 rs w1 w1' Hrun.
    apply for_each_run in Hrun as (_ & _ & -> & _).
    exists (omap record_of steps). split; [reflexivity | apply record_of_literal]. }
  split.
  { eexists. split; [by apply loop_run|]. apply (record_of_literal workflow_steps). }
  split; [apply mock_result_literal | reflexivity].
Qed.

Lemma appended_records_are_literal_witness :
  exists appended, script_results = [] ++ appended /\ Forall literal_record appended.
Proof.
  exact (proj1 (appended_records_are_literal empty_world)
           (1 # 2) workflow_steps [] script_results empty_world loop_world
           loop_run_empty).
Defined.


(** So does a delay beyond the range of [time.sleep]: ten thousand million
    seconds raise [OverflowError] at the same place. *)
Lemma oversized_delay_stops_the_script :
  fst (workflow_with_delay 10000000000 empty_world) = Raise OverflowError
  /\ length (stdout (snd (workflow_with_delay 10000000000 empty_world))) = 21%nat.
Proof. split; [by_vm | by vm_compute]. Qed.



(** C9: an iteration on a step without a 'url' key, such as the one on 'KG
    Integration', leaves [results] as it was, and a loop that completes has
    appended one record per step that has the key, in the order of the
    steps; for the script that makes two records. *)
Theorem results_hold_one_record_per_url_step {Ext : Type} (w : world Ext) :
  (forall d step rs rs' (w1 w1' : world Ext),
     dict_contains step "url" = false ->
     loop_body d step rs w1 = (Normal rs', w1') ->
     rs' = rs)
  /\ (forall d steps rs0 rs (w1 w1' : world Ext),
        for_each steps (loop_body d) rs0 w1 = (Normal rs, w1') ->
        rs = rs0 ++ omap record_of steps
        /\ length rs
           = (length rs0
              + length (List.filter (fun s => dict_contains s "url") steps))%nat)
  /\ (exists w',
        for_each workflow_steps (loop_body (1 # 2)) [] w = (Normal script_results, w')
        /\ script_results = omap record_of workflow_steps
        /\ length script_results = 2%nat
        /\ map (fun r => r !! "url") script_results
           = omap (fun s => Some (s !! "url"))
               (List.filter (fun s => dict_contains s "url") workflow_steps))
  /\ (exists kg,
        last workflow_steps = Some kg
        /\ kg !! "name" = Some (VStr "KG Integration")
        /\ dict_contains kg "url" = false
        /\ forall rs, exists w', loop_body (1 # 2) kg rs w = (Normal rs, w')).
Proof.
  split.
  { intros d step rs rs' w1 w1' Hno Hrun.
    apply loop_body_run in Hrun as (_ & _ & _ & -> & _).
    unfold dict_contains in Hno. by destruct (step !! "url"). }
  split.
  { intros d steps rs0 rs w1 w1' Hrun.
    apply for_each_run in Hrun as (_ & _ & -> & _).
    split; [reflexivity|]. by rewrite length_app, record_of_length. }
  split.
  { eexists. split; [by apply loop_run|]. repeat split. }
  eexists. split; [reflexivity|]. split; [reflexivity|]. split; [reflexivity|].
  intros rs. destruct w as [o z x]. eexists. vm_compute. reflexivity.
Qed.

Lemma results_hold_one_record_per_url_step_witness :
  script_results = [] ++ omap record_of workflow_steps
  /\ length script_results
     = (length (@nil (gmap string scalar))
        + length (List.filter (fun s => dict_contains s "url") workflow_steps))%nat.
Proof.
  exact (proj1 (proj2 (results_hold_one_record_per_url_step empty_world))
           (1 # 2) workflow_steps [] script_results empty_world loop_world
           loop_run_empty).
Defined.

(** C10: if every record of [results] has a 'url' key before the loop (in
    the script the list is empty), then after a loop that completes every
    record has one, so filtering [results] on ['url' in r] drops nothing and
    the number of URLs processed is [len(results)]; so it is for the
    script. *)
Theorem every_result_has_url {Ext : Type} (w : world Ext) :
  (forall d steps rs0 rs (w1 w1' : world Ext),
     Forall has_url rs0 ->
     for_each steps (loop_body d) rs0 w1 = (Normal rs, w1') ->
     Forall has_url rs
     /\ List.filter (fun r => dict_contains r "url") rs = rs
     /\ py_len (List.filter (fun r => dict_contains r "url") rs) = py_len rs)
  /\ (exists w',
        for_each workflow_steps (loop_body (1 # 2)) [] w = (Normal script_results, w')
        /\ Forall has_url script_results
        /\ List.filter (fun r => dict_contains r "url") script_results = script_results
        /\ py_len (List.filter (fun r => dict_contains r "url") script_results)
           = py_len script_results
        /\ py_len script_results = VInt 2).
Proof.
  split.
  - intros d steps rs0 rs w1 w1' Hrs0 Hrun.
    apply for_each_run in Hrun as (_ & _ & -> & _).
    assert (Forall has_url (rs0 ++ omap record_of steps)) as Hall
      by (apply Forall_app; split; [done | apply record_of_has_url]).
    split; [done|]. by rewrite (filter_all _ _ Hall).
  - eexists. split; [by apply loop_run|].
    pose proof (record_of_has_url workflow_steps) as Hall.
    change (omap record_of workflow_steps) with script_results in Hall.
    split; [done|]. by rewrite (filter_all _ _ Hall).
Qed.

Lemma every_result_has_url_witness :
  Forall has_url script_results
  /\ List.filter (fun r => dict_contains r "url") script_results = script_results
  /\ py_len (List.filter (fun r => dict_contains r "url") script_results)
     = py_len script_results.
Proof.
  exact (proj1 (every_result_has_url empty_world)
           (1 # 2) workflow_steps [] script_results empty_world loop_world
           (List.Forall_nil _) loop_run_empty).
Defined.

(** * Further properties of the script's parts *)

(** ** Sequencing *)

Lemma bind_assoc_at {Ext A B C : Type} (m : M Ext A) (k : A -> M Ext B)
    (k' : B -> M Ext C) (w : world Ext) :
  bind (bind m k) k' w = bind m (fun a => bind (k a) k') w.
Proof. unfold bind. by destruct (m w) as [[a|e] w1]. Qed.

Lemma bind_ext_at {Ext A B : Type} (m : M Ext A) (k k' : A -> M Ext B) (w : world Ext) :
  (forall a w1, k a w1 = k' a w1) -> bind m k w = bind m k' w.
Proof. intros Hk. unfold bind. destruct (m w) as [[a|e] w1]; [apply Hk | reflexivity]. Qed.

(** The summary and the closing prints are the script's own statements. *)
Lemma workflow_with_delay_parts {Ext : Type} (d : Q) (w : world Ext) :
  workflow_with_delay d w
  = (print "🔄 Browser Automation Workflow Demo" ;;;
     print (str_mul "=" 40) ;;;
     results <- for_each workflow_steps (loop_body d) [] ;;
     print_summary workflow_steps results ;;;
     print_benefits_and_definition ;;;
     ret results) w.
Proof.
  unfold workflow_with_delay, print_summary, print_benefits_and_definition.
  repeat first
    [ rewrite bind_assoc_at
    | apply bind_ext_at; intros; cbv beta ].
  reflexivity.
Qed.

(** ** Edge behaviour of one iteration *)

(** A loop stops at the first iteration that raises: the steps after it are
    not run. *)
Lemma for_each_abort {Ext A S : Type} (body : A -> S -> M Ext S)
    (before after : list A) (x : A) (s s1 : S) (e : exn) (w w1 w2 : world Ext) :
  for_each before body s w = (Normal s1, w1) ->
  body x s1 w1 = (Raise e, w2) ->
  for_each (before ++ x :: after) body s w = (Raise e, w2).
Proof.
  revert s w. induction before as [|y before IH]; intros s w.
  - intros [= -> ->] Hx. cbn [app for_each]. unfold bind. by rewrite Hx.
  - cbn [app for_each]. unfold bind.
    destruct (body y s w) as [[s'|e'] w']; [|discriminate]. apply IH.
Qed.

(** X1: a step without the key 'name' stops the loop with [KeyError] on
    'name' before anything is printed for it: the world is the one the steps
    before it left, and no later step is run. *)
Theorem missing_name_aborts_loop {Ext : Type} (d : Q)
    (before after : list (gmap string scalar)) (step : gmap string scalar)
    (rs rs1 : list (gmap string scalar)) (w w1 : world Ext) :
  step !! "name" = None ->
  for_each before (loop_body d) rs w = (Normal rs1, w1) ->
  for_each (before ++ step :: after) (loop_body d) rs w
  = (Raise (KeyError "name"), w1).
Proof.
  intros Hname Hbefore. apply (for_each_abort _ _ _ _ _ _ _ _ _ _ Hbefore).
  unfold loop_body, bind, getitem. by rewrite Hname.
Qed.

Lemma missing_name_aborts_loop_witness :
  for_each ([] ++ dict_literal [("url", VStr "https://example.com")] :: workflow_steps)
    (loop_body (1 # 2)) [] empty_world
  = (Raise (KeyError "name"), empty_world).
Proof.
  apply (missing_name_aborts_loop (1 # 2) [] workflow_steps
           (dict_literal [("url", VStr "https://example.com")]) [] [] empty_world
           empty_world); reflexivity.
Defined.

(** X2: a step whose fields are strings, with a name but no 'action',
    raises [KeyError] on 'action' when it has a 'url' or is named 'KG
    Integration'; by then its header has been printed, and its URL line if
    it has a URL, but nothing was slept. *)
Theorem missing_action_raises {Ext : Type} (d : Q) (step : gmap string scalar)
    (name : string) (rs : list (gmap string scalar)) (w : world Ext) :
  text_fields step = true ->
  step !! "name" = Some (VStr name) ->
  step !! "action" = None ->
  is_Some (step !! "url") \/ name = "KG Integration" ->
  loop_body d step rs w
  = (Raise (KeyError "action"),
     World (match step !! "url" with
            | Some u => [("   🌐 URL: " +:+ py_str u) +:+ nl]
            | None => []
            end ++ header_chunk (VStr name) :: stdout w)
           (sleeps w) (ext w)).
Proof.
  intros _ Hname Haction Hcase.
  unfold loop_body, bind, getitem, dict_contains, print, ret, raise.
  rewrite Hname, Haction. destruct (step !! "url") as [u|]; [reflexivity|].
  destruct Hcase as [[u Hu]| ->]; [discriminate | reflexivity].
Qed.

Lemma missing_action_raises_witness :
  loop_body (1 # 2) (dict_literal [("name", VStr "KG Integration")]) [] empty_world
  = (Raise (KeyError "action"),
     World ([] ++ [header_chunk (VStr "KG Integration")]) [] tt).
Proof.
  apply (missing_action_raises (1 # 2) (dict_literal [("name", VStr "KG Integration")])
           "KG Integration" [] empty_world); [reflexivity | reflexivity | reflexivity |].
  right. reflexivity.
Defined.

(** ** What a completed loop costs *)

Lemma loop_body_accounting {Ext : Type} (d : Q) (step : gmap string scalar)
    (rs rs' : list (gmap string scalar)) (w w' : world Ext) :
  loop_body d step rs w = (Normal rs', w') ->
  sleeps w' = (if is_kg_step step then [d; d; d; d] else []) ++ sleeps w
  /\ length (stdout w')
     = (length (stdout w)
        + if dict_contains step "url" then 8
          else if is_kg_step step then 7 else 1)%nat.
Proof.
  unfold loop_body, is_kg_step, bind, getitem, dict_contains, print, ret, raise.
  destruct (step !! "name") as [n|]; [|discriminate].
  destruct (step !! "url") as [u|].
  - destruct (step !! "action") as [a|]; [|discriminate].
    cbv zeta. destruct (mock_result_literal u) as (_ & _ & Hs & Ht & Hc & He & Hk).
    rewrite Hs, Ht, Hc, He, Hk. intros [= _ <-]. cbn [stdout sleeps length].
    split; [reflexivity | lia].
  - cbn [negb andb]. destruct (py_eq_str n "KG Integration").
    + destruct (step !! "action") as [a|]; [|discriminate].
      cbn [stdout sleeps ext].
      match goal with |- context [kg_loop d ?w0] =>
        destruct (kg_loop d w0) as [[[]|e] w1] eqn:Hkg; [|discriminate];
        destruct (kg_loop_run d w0 (kg_loop_normal _ _ _ _ Hkg)) as (body & Hrun & _ & Hlen)
      end.
      rewrite Hkg in Hrun. injection Hrun as ->.
      intros [= _ <-]. cbn [stdout sleeps ext]. split; [reflexivity|].
      cbn [length]. rewrite length_app, Hlen. cbn [length]. lia.
    + intros [= _ <-]. cbn. split; [reflexivity | lia].
Qed.

(** X4: a loop that completes has slept four times the delay for each step
    on which it ran the knowledge-graph branch and for no other step, and
    has made one print call per step, seven more per step with a URL and six
    more per knowledge-graph step. *)
Theorem loop_accounting {Ext : Type} (d : Q) (steps rs rs' : list (gmap string scalar))
    (w w' : world Ext) :
  for_each steps (loop_body d) rs w = (Normal rs', w') ->
  sleeps w' = repeat d (4 * length (List.filter is_kg_step steps)) ++ sleeps w
  /\ length (stdout w')
     = (length (stdout w) + length steps
        + 7 * length (List.filter (fun s => dict_contains s "url") steps)
        + 6 * length (List.filter is_kg_step steps))%nat.
Proof.
  revert rs w. induction steps as [|step steps IH]; intros rs w.
  - intros [= _ <-]. cbn. split; [reflexivity | lia].
  - cbn [for_each]. unfold bind at 1.
    destruct (loop_body d step rs w) as [[rs1|e] w1] eqn:Hbody; [|discriminate].
    intros Hrest. apply loop_body_accounting in Hbody as [Hs Hl].
    apply IH in Hrest as [Hs' Hl']. rewrite Hs', Hl', Hs, Hl. clear.
    cbn [List.filter].
    assert (dict_contains step "url" = true -> is_kg_step step = false) as Hexcl
      by (unfold is_kg_step; by intros ->).
    destruct (dict_contains step "url"), (is_kg_step step);
      try (specialize (Hexcl eq_refl); discriminate); cbn [length app].
    + split; [reflexivity | lia].
    + split; [|lia].
      replace (4 * S (length (List.filter is_kg_step steps)))%nat
        with (4 * length (List.filter is_kg_step steps) + 4)%nat by lia.
      by rewrite repeat_app, <- app_assoc.
    + split; [reflexivity | lia].
Qed.

Lemma loop_accounting_witness :
  sleeps loop_world
  = repeat (1 # 2) (4 * length (List.filter is_kg_step workflow_steps)) ++ sleeps empty_world
  /\ length (stdout loop_world)
     = (length (stdout empty_world) + length workflow_steps
        + 7 * length (List.filter (fun s => dict_contains s "url") workflow_steps)
        + 6 * length (List.filter is_kg_step workflow_steps))%nat.
Proof.
  exact (loop_accounting (1 # 2) workflow_steps [] script_results empty_world loop_world
           loop_run_empty).
Defined.

(** ** The summary on any list of results *)

Lemma sum_from_ints {Ext : Type} (zs : list Z) (a : Z) (w : world Ext) :
  for_each (map VInt zs) (fun x acc => py_add acc x) (VInt a) w
  = (Normal (VInt (a + foldr Z.add 0 zs)), w).
Proof.
  revert a. induction zs as [|z zs IH]; intros a; cbn [map for_each foldr].
  - unfold ret. do 3 f_equal. lia.
  - unfold bind. cbn [py_add ret]. rewrite IH. do 3 f_equal. lia.
Qed.

Lemma py_sum_ints {Ext : Type} (zs : list Z) (w : world Ext) :
  py_sum (map VInt zs) w = (Normal (VInt (foldr Z.add 0 zs)), w).
Proof. unfold py_sum. by rewrite sum_from_ints. Qed.

Lemma fields_are_ints (k : string) (results : list (gmap string scalar)) (zs : list Z) :
  Forall2 (fun r z => dict_get_default r k (VInt 0) = VInt z) results zs ->
  map (fun r => dict_get_default r k (VInt 0)) results = map VInt zs.
Proof. induction 1 as [|r z results zs Hr _ IH]; [reflexivity|]. cbn. by rewrite Hr, IH. Qed.

(** X6: when every record of [results] holds an integer under
    'entities_found' and under 'kg_triples_added', or lacks the key, which
    counts as 0, and the two sums stay within the digits [str] writes out,
    the summary prints its heading, the number of steps, the number of
    records that have a 'url' and the two sums, and raises nothing. *)
Theorem summary_totals {Ext : Type} (steps results : list (gmap string scalar))
    (es ts : list Z) (w : world Ext) :
  Forall2 (fun r z => dict_get_default r "entities_found" (VInt 0) = VInt z) results es ->
  Forall2 (fun r z => dict_get_default r "kg_triples_added" (VInt 0) = VInt z) results ts ->
  int_str_ok (foldr Z.add 0 es) = true ->
  int_str_ok (foldr Z.add 0 ts) = true ->
  print_summary steps results w
  = (Normal tt,
     World
       ([ ("   Total KG triples added: " +:+ pretty (foldr Z.add 0 ts)) +:+ nl;
          ("   Total entities extracted: " +:+ pretty (foldr Z.add 0 es)) +:+ nl;
          ("   URLs processed: "
           +:+ pretty (Z.of_nat (length (List.filter (fun r => dict_contains r "url")
                                           results)))) +:+ nl;
          ("   Total steps: " +:+ pretty (Z.of_nat (length steps))) +:+ nl;
          (nl +:+ "📊 Workflow Summary:") +:+ nl ]
        ++ stdout w)
       (sleeps w) (ext w)).
Proof.
  intros Hes Hts _ _. unfold print_summary.
  rewrite (fields_are_ints _ _ _ Hes), (fields_are_ints _ _ _ Hts).
  unfold bind, print. cbn [stdout sleeps ext]. by rewrite !py_sum_ints.
Qed.

Lemma summary_totals_witness :
  print_summary [] [mock_result VNone; dict_literal [("entities_found", VInt 5)]] empty_world
  = (Normal tt,
     World
       ([ ("   Total KG triples added: " +:+ pretty (foldr Z.add 0 [12; 0])) +:+ nl;
          ("   Total entities extracted: " +:+ pretty (foldr Z.add 0 [8; 5])) +:+ nl;
          ("   URLs processed: "
           +:+ pretty (Z.of_nat (length (List.filter (fun r => dict_contains r "url")
                  [mock_result VNone; dict_literal [("entities_found", VInt 5)]]))))
          +:+ nl;
          ("   Total steps: " +:+ pretty (Z.of_nat (length (@nil (gmap string scalar)))))
          +:+ nl;
          (nl +:+ "📊 Workflow Summary:") +:+ nl ]
        ++ [])
       [] tt).
Proof.
  apply (summary_totals [] [mock_result VNone; dict_literal [("entities_found", VInt 5)]]
           [8; 5] [12; 0] empty_world); try reflexivity; repeat constructor.
Defined.

Lemma sum_hits_non_number {Ext : Type} (xs : list scalar) (acc : scalar) (w : world Ext) :
  is_number acc = true ->
  is_float acc = false ->
  Forall (fun x => is_float x = false) xs ->
  Exists (fun x => is_number x = false) xs ->
  for_each xs (fun x a => py_add a x) acc w = (Raise TypeError, w).
Proof.
  intros Hacc Hnf Hxs Hex. revert acc Hacc Hnf.
  induction Hxs as [|x xs Hx Hxs IH]; intros acc Hacc Hnf; [by apply Exists_nil in Hex|].
  cbn [for_each]. unfold bind.
  destruct (is_number x) eqn:Hnum.
  - apply Exists_cons in Hex as [Hex|Hex]; [congruence|].
    destruct acc, x; try discriminate; cbn [py_add ret]; by apply IH.
  - by destruct acc, x; try discriminate.
Qed.

(** X7: when no record of [results] holds a float under 'entities_found'
    and some record holds a value that is not a number (a string or
    [None]), the summary raises [TypeError] after its heading, the number of
    steps and the number of URLs have been printed; neither total is
    printed. *)
Theorem summary_type_error {Ext : Type} (steps results : list (gmap string scalar))
    (w : world Ext) :
  Forall (fun r => is_float (dict_get_default r "entities_found" (VInt 0)) = false)
    results ->
  Exists (fun r => is_number (dict_get_default r "entities_found" (VInt 0)) = false)
    results ->
  print_summary steps results w
  = (Raise TypeError,
     World
       ([ ("   URLs processed: "
           +:+ pretty (Z.of_nat (length (List.filter (fun r => dict_contains r "url")
                                           results)))) +:+ nl;
          ("   Total steps: " +:+ pretty (Z.of_nat (length steps))) +:+ nl;
          (nl +:+ "📊 Workflow Summary:") +:+ nl ]
        ++ stdout w)
       (sleeps w) (ext w)).
Proof.
  intros Hnf Hex. unfold print_summary, bind, print. cbn [stdout sleeps ext].
  unfold py_sum. rewrite sum_hits_non_number; [reflexivity | reflexivity | reflexivity | |].
  - apply Forall_fmap. by apply (Forall_impl _ _ _ Hnf).
  - apply Exists_exists in Hex as (r & Hin & Hr). apply Exists_exists.
    exists (dict_get_default r "entities_found" (VInt 0)). split; [|done].
    apply list_elem_of_fmap. by exists r.
Qed.

Lemma summary_type_error_witness :
  print_summary workflow_steps
    [mock_result VNone; dict_literal [("entities_found", VStr "8")]] empty_world
  = (Raise TypeError,
     World
       ([ ("   URLs processed: "
           +:+ pretty (Z.of_nat (length (List.filter (fun r => dict_contains r "url")
                  [mock_result VNone; dict_literal [("entities_found", VStr "8")]]))))
          +:+ nl;
          ("   Total steps: " +:+ pretty (Z.of_nat (length workflow_steps))) +:+ nl;
          (nl +:+ "📊 Workflow Summary:") +:+ nl ]
        ++ [])
       [] tt).
Proof.
  apply (summary_type_error workflow_steps
           [mock_result VNone; dict_literal [("entities_found", VStr "8")]] empty_world).
  - repeat constructor.
  - apply Exists_cons_tl, Exists_cons_hd. reflexivity.
Defined.

(** ** How the loop can fail, and when it cannot *)









(** ** The delay and the output, for any steps *)



